(** * PADMapp: the DIC risk predictor form, embedded and verified

    A shallow embedding of [src/PADMapp.py]: the threshold mapper
    [get_risk_level], the recommendation table
    [get_clinical_recommendations], the normal-range check inside
    [create_parameter_display], the two guarded calls [load_model] and
    [predict_risk], and the result column of [main].

    Python floats are IEEE 754 binary64 numbers; they are modelled by Rocq's
    primitive floats, which are the same numbers with the same comparisons, so
    that a literal such as [0.222] denotes here the very double it denotes in
    the program.  Facts about arbitrary floats go through the specification
    of the primitive comparisons ([ltb_spec], [leb_spec], [eqb_spec]). *)

From Stdlib Require Import Floats ZArith String List Bool Lia DecimalString.
From stdpp Require Import gmap strings.
Import ListNotations.

Set Warnings "-inexact-float".
Local Open Scope string_scope.

(** ** Binary64 comparisons *)

Module F64.

(** Python's [a < b], [a <= b], [a > b], [a == b] and [a != b] on floats.
    [a > b] is IEEE's [b < a]; every comparison with NaN is false, except
    [!=] which is true. *)
Definition lt (a b : float) : bool := PrimFloat.ltb a b.
Definition le (a b : float) : bool := PrimFloat.leb a b.
Definition gt (a b : float) : bool := PrimFloat.ltb b a.
Definition eq (a b : float) : bool := PrimFloat.eqb a b.
Definition ne (a b : float) : bool := negb (PrimFloat.eqb a b).

Definition is_nan (a : float) : bool := PrimFloat.is_nan a.

(** A rank that orders the non-NaN values of [spec_float] exactly as
    [SFcompare] does: the class first (-inf, negative, zero, positive,
    +inf), then the exponent, then the mantissa, both negated below zero. *)
Definition rank (x : spec_float) : option (Z * Z * Z) :=
  match x with
  | S754_nan => None
  | S754_infinity true => Some (-2, 0, 0)
  | S754_finite true m e => Some (-1, - e, Z.neg m)
  | S754_zero _ => Some (0, 0, 0)
  | S754_finite false m e => Some (1, e, Z.pos m)
  | S754_infinity false => Some (2, 0, 0)
  end%Z.

Definition lex_lt (a b : Z * Z * Z) : Prop :=
  match a, b with
  | (a1, a2, a3), (b1, b2, b3) =>
      (a1 < b1 \/ (a1 = b1 /\ (a2 < b2 \/ (a2 = b2 /\ a3 < b3))))%Z
  end.

Definition lex_le (a b : Z * Z * Z) : Prop :=
  match a, b with
  | (a1, a2, a3), (b1, b2, b3) =>
      (a1 < b1 \/ (a1 = b1 /\ (a2 < b2 \/ (a2 = b2 /\ a3 <= b3))))%Z
  end.

Definition lex_eq (a b : Z * Z * Z) : Prop :=
  match a, b with
  | (a1, a2, a3), (b1, b2, b3) => (a1 = b1 /\ a2 = b2 /\ a3 = b3)%Z
  end.

Definition rank_rel (R : Z * Z * Z -> Z * Z * Z -> Prop) (x y : spec_float) : Prop :=
  match rank x, rank y with
  | Some a, Some b => R a b
  | _, _ => False
  end.

End F64.

(** ** Python calls: a result or an exception *)

(** The exceptions the modelled code can meet: a list or array index out of
    range, a missing dictionary key, and any other [Exception] raised by
    [joblib.load] or by the model, with its message. *)
Inductive exn :=
| IndexError (msg : string)
| KeyError (key : string)
| Exception (msg : string).

(** [str(e)]: a [KeyError] prints the repr of its key. *)
Definition str_exn (e : exn) : string :=
  match e with
  | IndexError msg => msg
  | KeyError key => "'" ++ key ++ "'"
  | Exception msg => msg
  end.

Inductive outcome (A : Type) : Type :=
| Returns (a : A)
| Raises (e : exn).
Arguments Returns {A} a.
Arguments Raises {A} e.

#[global] Instance outcome_ret : MRet outcome := fun A a => Returns a.
#[global] Instance outcome_bind : MBind outcome := fun A B f m =>
  match m with
  | Returns a => f a
  | Raises e => Raises e
  end.

(** [l[i]] for a list and a non-negative index. *)
Definition list_getitem {A : Type} (l : list A) (i : nat) : outcome A :=
  match l !! i with
  | Some x => Returns x
  | None => Raises (IndexError "list index out of range")
  end.

(** [d[key]] for a dictionary kept in insertion order. *)
Fixpoint dict_getitem {A : Type} (d : list (string * A)) (key : string) : outcome A :=
  match d with
  | [] => Raises (KeyError key)
  | (k, v) :: rest => if String.eqb k key then Returns v else dict_getitem rest key
  end.

(** ** Threshold mapper (lines 167-174) *)

(** The default value of the [thresholds] argument. *)
Definition default_thresholds : list float := [0.222; 0.64]%float.

(** [get_risk_level(probability, thresholds)] returns the label, the CSS class
    and the category id.  [thresholds[1]] is only read when the first test
    fails, as in the source. *)
Definition get_risk_level (probability : float) (thresholds : list float)
  : outcome (string * string * Z) :=
  t0 ← list_getitem thresholds 0;
  if F64.lt probability t0 then mret ("Low Risk", "risk-low", 0%Z)
  else
    t1 ← list_getitem thresholds 1;
    if F64.le probability t1 then mret ("Medium Risk", "risk-medium", 1%Z)
    else mret ("High Risk", "risk-high", 2%Z).

(** ** Recommendation lookup (lines 205-241) *)

(** A value of the [recommendations] dictionary: a dictionary with the keys
    ["title"], ["color"], ["recommendations"] and ["actions"], each present or
    absent.  The empty dictionary [{}] has none of them. *)
Record bundle := {
  title : option string;
  color : option string;
  recommendations : option (list string);
  actions : option (list string)
}.

Definition empty_bundle : bundle :=
  {| title := None; color := None; recommendations := None; actions := None |}.

(** Truth value of a dictionary: true unless it is empty. *)
Definition bundle_truthy (b : bundle) : bool :=
  match title b, color b, recommendations b, actions b with
  | None, None, None, None => false
  | _, _, _, _ => true
  end.

Definition low_risk_bundle : bundle :=
  {| title := Some "🟢 Low Risk Clinical Recommendations";
     color := Some "#28a745";
     recommendations := Some [ "📊 **Continue routine clinical monitoring**" ];
     actions := None |}.

Definition medium_risk_bundle : bundle :=
  {| title := Some "🟡 Medium Risk Clinical Recommendations";
     color := Some "#ffc107";
     recommendations := Some
       [ "📊 **Increase monitoring frequency**";
         "🩺 **Consider fibrin degradation products (FDP), antithrombin III等的监测**" ];
     actions := None |}.

Definition high_risk_bundle : bundle :=
  {| title := Some "🔴 High Risk Clinical Recommendations";
     color := Some "#dc3545";
     recommendations := Some
       [ "🚨 **Immediate Action: Urgent consultation required**";
         "💉 **STAT repeat coagulation panel, CBC, fibrinogen, renal and liver function**";
         "📞 **Alert senior clinician, activate rapid response team if clinical deterioration**";
         "🩸 **Monitor for signs of microvascular thrombosis: digital ischemia, renal failure, altered mental status**" ];
     actions := Some
       [ "Monitor for Complications:";
         "• Acute kidney injury";
         "• ARDS";
         "• Hepatic failure";
         "• Cerebral ischemia" ] |}.

(** The local dictionary [recommendations] of the function. *)
Definition recommendations_dict : gmap string bundle :=
  <["Low Risk" := low_risk_bundle]>
    (<["Medium Risk" := medium_risk_bundle]>
      (<["High Risk" := high_risk_bundle]> ∅)).

(** [recommendations.get(risk_level, {})]. *)
Definition get_clinical_recommendations (risk_level : string) : bundle :=
  default empty_bundle (recommendations_dict !! risk_level).

(** ** Parameter display (lines 243-278) *)

Definition normal_ranges : gmap string (float * float) :=
  <["PT" := (11.0, 13.5)%float]>
    (<["APTT" := (25.0, 35.0)%float]>
      (<["D-Dimer" := (0.0, 0.5)%float]>
        (<["MPV" := (7.5, 11.5)%float]> ∅))).

(** [value < normal_min or value > normal_max] (line 256). *)
Definition is_abnormal (value normal_min normal_max : float) : bool :=
  F64.lt value normal_min || F64.gt value normal_max.

(** What one card of the display is made of; the HTML around these fields
    is fixed text.  The three numbers are the ones handed to the format
    [:.1f]: the card prints each of them rounded to one decimal, and that
    printing is not part of the model. *)
Record parameter_card := {
  card_param : string;
  card_value : float;
  card_normal_min : float;
  card_normal_max : float;
  card_color : string;
  card_status : string
}.

(** The body of the loop (lines 255-275).  The default range [(0, 0)] holds
    Python integers; a float compares with the integer 0 as with [0.0]. *)
Definition parameter_card_of (param : string) (value : float) : parameter_card :=
  let '(normal_min, normal_max) := default (0, 0)%float (normal_ranges !! param) in
  let abnormal := is_abnormal value normal_min normal_max in
  {| card_param := param;
     card_value := value;
     card_normal_min := normal_min;
     card_normal_max := normal_max;
     card_color := if abnormal then "#dc3545" else "#28a745";
     card_status := if abnormal then "⚠️ ABNORMAL" else "✓ NORMAL" |}.

(** [create_parameter_display(values)]: one card per item of [values], in the
    order of the dictionary. *)
Definition create_parameter_display (values : list (string * float)) : list parameter_card :=
  map (fun '(param, value) => parameter_card_of param value) values.

(** ** The page, the session and the calls that may fail *)

(** The value shown by [st.metric]: a text, or [f"{p:.1%}"] for a float. *)
Inductive metric_value :=
| Text (s : string)
| Percent1 (p : float).

(** The blocks that [main] writes with [st.markdown] as fixed text (the two
    sidebar cards, the header, the opening and closing tags of the cards, the
    legend of the categories), and the generated ones, named by what they
    show: [RiskGauge p] is [create_risk_gauge(p)] and [ParameterDisplay] is
    the result of [create_parameter_display]. *)
Inductive html :=
| AboutCard
| NotesCard
| MainHeader
| Subtitle
| CardOpen
| MetricCardOpen
| DivClose
| SubHeader (text : string)
| RiskCategoriesLegend
| RiskDivOpen (risk_class : string)
| RiskGauge (probability : float)
| ParameterDisplay (cards : list parameter_card).

(** One call that writes to the page. *)
Inductive element :=
| StError (msg : string)
| StInfo (msg : string)
| StMarkdown (body : string)
| StHtml (h : html)
| StMetric (label : string) (value : metric_value)
| StNumberInput (label : string)
| StButton (label : string).

(** [st.session_state] once the [__main__] block has set its two keys. *)
Record session_state := {
  prediction_made : bool;
  input_values : list (string * float)
}.

Record world := {
  session : session_state;
  page : list element
}.

(** A call of the script: it may read and change the world, and returns or
    raises; what it wrote before raising stays written. *)
Definition ui (A : Type) : Type := world -> outcome A * world.

#[global] Instance ui_ret : MRet ui := fun A a w => (Returns a, w).
#[global] Instance ui_bind : MBind ui := fun A B f m w =>
  match m w with
  | (Returns a, w') => f a w'
  | (Raises e, w') => (Raises e, w')
  end.

Definition lift {A : Type} (o : outcome A) : ui A := fun w => (o, w).

Definition emit (e : element) : ui unit :=
  fun w => (Returns tt, {| session := session w; page := page w ++ [e] |}).

Definition st_error (msg : string) : ui unit := emit (StError msg).
Definition st_info (msg : string) : ui unit := emit (StInfo msg).
Definition st_markdown (body : string) : ui unit := emit (StMarkdown body).
Definition st_html (h : html) : ui unit := emit (StHtml h).
Definition st_metric (label : string) (value : metric_value) : ui unit :=
  emit (StMetric label value).

(** A widget shows itself and returns the value the user gave it in this run. *)
Definition st_number_input (label : string) (current : float) : ui float :=
  emit (StNumberInput label);; mret current.
Definition st_button (label : string) (clicked : bool) : ui bool :=
  emit (StButton label);; mret clicked.

Definition get_session : ui session_state := fun w => (Returns (session w), w).
Definition set_session (s : session_state) : ui unit :=
  fun w => (Returns tt, {| session := s; page := page w |}).

(** [for x in l: body(x)]. *)
Fixpoint for_each {A : Type} (l : list A) (body : A -> ui unit) : ui unit :=
  match l with
  | [] => mret tt
  | x :: rest => body x;; for_each rest body
  end.

(** ** The model (lines 147-165) *)

(** The frame built at lines 397-402: named columns of one row. *)
Definition input_df : Type := list (string * list float).

(** The calibrated classifier: [predict_proba] returns one row of class
    probabilities per input row, or raises. *)
Record classifier := {
  predict_proba : input_df -> outcome (list (list float))
}.

(** The message of numpy for an index out of the bounds of an axis. *)
Definition out_of_bounds (index axis size : nat) : string :=
  "index " ++ NilEmpty.string_of_uint (Nat.to_uint index)
  ++ " is out of bounds for axis " ++ NilEmpty.string_of_uint (Nat.to_uint axis)
  ++ " with size " ++ NilEmpty.string_of_uint (Nat.to_uint size).

(** [a[i, j]] on a two-dimensional array, whose rows have one length. *)
Definition array_getitem2 (a : list (list float)) (i j : nat) : outcome float :=
  match a !! i with
  | Some row =>
      match row !! j with
      | Some x => Returns x
      | None => Raises (IndexError (out_of_bounds j 1 (length row)))
      end
  | None => Raises (IndexError (out_of_bounds i 0 (length a)))
  end.

(** [load_model()]: [artifact] is what [joblib.load('PADM_model.pkl')] does;
    the dictionary it returns is kept in insertion order.  The decorator
    [st.cache_resource] keeps the first result for the later runs; here every
    run is given the same [artifact]. *)
Definition load_model (artifact : outcome (list (string * classifier)))
  : ui (option (list (string * classifier))) :=
  match artifact with
  | Returns model_info => mret (Some model_info)
  | Raises e => st_error ("Error loading model: " ++ str_exn e);; mret None
  end.

(** The body of the [try] of [predict_risk] (lines 160-162). *)
Definition predict_attempt (model_info : list (string * classifier)) (input_data : input_df)
  : outcome float :=
  calibrated_model ← dict_getitem model_info "model";
  proba ← predict_proba calibrated_model input_data;
  array_getitem2 proba 0 1.

(** [predict_risk(model_info, input_data)]: the probability, or [None] after
    an error message when the attempt raised. *)
Definition predict_risk (model_info : list (string * classifier)) (input_data : input_df)
  : ui (option float) :=
  match predict_attempt model_info input_data with
  | Returns prediction_proba => mret (Some prediction_proba)
  | Raises e => st_error ("Prediction error: " ++ str_exn e);; mret None
  end.

(** ** The script run (lines 280-524) *)

(** What one run of the script receives from outside: the values of the four
    number inputs, whether each button was clicked in this run, and the date. *)
Record interaction := {
  PT_input : float;
  D_Dimer_input : float;
  APTT_input : float;
  MPV_input : float;
  calculate_clicked : bool;
  demo_clicked : bool;
  today : string
}.

(** [d[key]] for a key of a [bundle]. *)
Definition bundle_getitem {A : Type} (key : string) (field : option A) : outcome A :=
  match field with
  | Some v => Returns v
  | None => Raises (KeyError key)
  end.

(** Lines 462-479: the recommendation card for [risk_level]; [found] is the
    local variable [recommendations]. *)
Definition show_recommendations (risk_level : string) : ui unit :=
  st_html CardOpen;;
  let found := get_clinical_recommendations risk_level in
  (if bundle_truthy found then
     t ← lift (bundle_getitem "title" (title found));
     st_markdown ("### " ++ t);;
     st_markdown "#### 📋 Recommended Actions";;
     recs ← lift (bundle_getitem "recommendations" (recommendations found));
     for_each recs (fun rec => st_markdown ("• " ++ rec));;
     if String.eqb risk_level "High Risk" && bool_decide (is_Some (actions found)) then
       st_markdown "#### ⚡ Immediate Considerations";;
       acts ← lift (bundle_getitem "actions" (actions found));
       for_each acts (fun action => st_markdown action)
     else mret tt
   else mret tt);;
  st_html DivClose.

(** Lines 407-479: what is shown once a probability is there. *)
Definition show_results (probability : float) : ui unit :=
  st_html CardOpen;;
  st_html (SubHeader "📊 Prediction Results");;
  '(risk_level, risk_class, risk_idx) ← lift (get_risk_level probability default_thresholds);
  st_html MetricCardOpen;;
  st_metric "**DIC Probability**" (Percent1 probability);;
  st_html DivClose;;
  st_html MetricCardOpen;;
  (if String.eqb risk_level "Low Risk" then st_metric "**Risk Level**" (Text "🟢 LOW")
   else if String.eqb risk_level "Medium Risk" then st_metric "**Risk Level**" (Text "🟡 MEDIUM")
   else st_metric "**Risk Level**" (Text "🔴 HIGH"));;
  st_html DivClose;;
  st_markdown "#### 📈 Risk Visualization";;
  st_html (RiskGauge probability);;
  st_html (RiskDivOpen risk_class);;
  st_markdown ("### " ++ risk_level);;
  (if String.eqb risk_level "Low Risk" then
     st_markdown "**Probability < 22.2%** - Routine monitoring recommended"
   else if String.eqb risk_level "Medium Risk" then
     st_markdown "**Probability 22.2% - 64.0%** - Increased vigilance required"
   else st_markdown "**Probability > 64.0%** - Urgent intervention needed");;
  st_html DivClose;;
  st_markdown "#### 📊 Parameter Analysis";;
  s ← get_session;
  st_html (ParameterDisplay (create_parameter_display (input_values s)));;
  st_html DivClose;;
  show_recommendations risk_level.

(** Lines 481-504: the placeholder shown before any prediction. *)
Definition show_placeholder : ui unit :=
  st_html CardOpen;;
  st_html (SubHeader "📊 Prediction Results");;
  st_info "👈 Enter patient parameters and click 'Calculate DIC Risk' to see predictions";;
  st_html (RiskGauge 0%float);;
  st_html RiskCategoriesLegend;;
  st_html DivClose;;
  st_html CardOpen;;
  st_markdown "### 📋 Clinical Recommendations";;
  st_info "Risk-specific clinical guidance will appear here after calculation";;
  st_html DivClose.

(** Lines 506-516. *)
Definition show_footer (date : string) : ui unit :=
  st_markdown "---";;
  st_markdown "**⚠️ Disclaimer**";;
  st_markdown "*Clinical decision support tool only*";;
  st_markdown "**📅 Version**";;
  st_markdown ("PADM v1.0 • " ++ date).

(** Lines 397-402: the frame of a stored panel; a missing key raises. *)
Definition panel_frame (values : list (string * float)) : outcome input_df :=
  pt ← dict_getitem values "PT";
  aptt ← dict_getitem values "APTT";
  ddimer ← dict_getitem values "D-Dimer";
  mpv ← dict_getitem values "MPV";
  mret [("PT", [pt]); ("APTT", [aptt]); ("D-Dimer", [ddimer]); ("MPV", [mpv])].

(** [main()].  The layout calls ([st.columns], [with]) only place what
    the other calls write, so the page is kept as the sequence of those calls.
    The [return] of line 393 ends the run inside the branch of the missing
    model: nothing after it, the footer included, is written. *)
Definition main (artifact : outcome (list (string * classifier))) (i : interaction) : ui unit :=
  st_html AboutCard;;
  st_html NotesCard;;
  st_html MainHeader;;
  st_html Subtitle;;
  st_html CardOpen;;
  st_html (SubHeader "📝 Patient Parameters");;
  PT ← st_number_input "**Prothrombin Time (PT)**" (PT_input i);
  D_Dimer ← st_number_input "**D-Dimer**" (D_Dimer_input i);
  APTT ← st_number_input "**Activated Partial Thromboplastin Time (APTT)**" (APTT_input i);
  MPV ← st_number_input "**Mean Platelet Volume (MPV)**" (MPV_input i);
  calculate ← st_button "🔍 Calculate DIC Risk" (calculate_clicked i);
  (if calculate : bool then
     set_session {| prediction_made := true;
                    input_values := [("PT", PT); ("APTT", APTT); ("D-Dimer", D_Dimer); ("MPV", MPV)] |}
   else mret tt);;
  st_html DivClose;;
  model_info ← load_model artifact;
  match model_info : option (list (string * classifier)) with
  | None =>
      st_error "Failed to load the prediction model. Please ensure PADM_model.pkl exists.";;
      st_info "If you don't have a trained model, you can use the demo mode below.";;
      demo ← st_button "🔄 Use Demo Mode" (demo_clicked i);
      if demo : bool then
        set_session {| prediction_made := true;
                       input_values := [("PT", 18.5); ("APTT", 55.0); ("D-Dimer", 3.2); ("MPV", 12.5)]%float |}
      else mret tt
  | Some model_info =>
      s ← get_session;
      (if prediction_made s then
         input_df ← lift (panel_frame (input_values s));
         probability ← predict_risk model_info input_df;
         match probability : option float with
         | Some probability => show_results probability
         | None => mret tt
         end
       else show_placeholder);;
      show_footer (today i)
  end.

(** The [__main__] block: a fresh session gets both keys, then [main] runs.
    [run] is one run of the script on the session left by the previous one;
    it returns the result of [main] with the page written and the session
    left. *)
Definition initial_session : session_state :=
  {| prediction_made := false; input_values := [] |}.

Definition run (artifact : outcome (list (string * classifier))) (i : interaction)
    (s : session_state) : outcome unit * world :=
  main artifact i {| session := s; page := [] |}.

(** ** Vocabulary of the properties *)

(** The label and the CSS class that belong to a category id. *)
Definition tier_of_id (id : Z) : option (string * string) :=
  match id with
  | 0%Z => Some ("Low Risk", "risk-low")
  | 1%Z => Some ("Medium Risk", "risk-medium")
  | 2%Z => Some ("High Risk", "risk-high")
  | _ => None
  end.

(** The three labels that [get_risk_level] returns. *)
Definition tier_labels : list string := ["Low Risk"; "Medium Risk"; "High Risk"].

(** The reference intervals of the four parameters. *)
Definition reference_ranges : list (string * (float * float)) :=
  [("PT", (11.0, 13.5)); ("APTT", (25.0, 35.0));
   ("D-Dimer", (0.0, 0.5)); ("MPV", (7.5, 11.5))]%float.

(** [s.startswith(pre)]. *)
Fixpoint starts_with (pre s : string) : bool :=
  match pre, s with
  | EmptyString, _ => true
  | String a pre', String b s' => Ascii.eqb a b && starts_with pre' s'
  | String _ _, EmptyString => false
  end.

(** [needle in hay] on strings. *)
Fixpoint contains (needle hay : string) : bool :=
  starts_with needle hay ||
  match hay with
  | EmptyString => false
  | String _ rest => contains needle rest
  end.

(** The session left by the form (lines 365-372). *)
Definition after_form (i : interaction) (s : session_state) : session_state :=
  if calculate_clicked i then
    {| prediction_made := true;
       input_values := [("PT", PT_input i); ("APTT", APTT_input i);
                        ("D-Dimer", D_Dimer_input i); ("MPV", MPV_input i)] |}
  else s.

(** The example panel of the demo button (lines 387-392). *)
Definition demo_session : session_state :=
  {| prediction_made := true;
     input_values := [("PT", 18.5); ("APTT", 55.0); ("D-Dimer", 3.2); ("MPV", 12.5)]%float |}.

(** A loaded model whose classifier gives the positive class the
    probability [p] for every panel. *)
Definition stub_model (p : float) : list (string * classifier) :=
  [("model", {| predict_proba := fun _ => Returns [[(1 - p)%float; p]] |})].

(** A run in which the user submits the demo panel. *)
Definition submit_demo_panel : interaction :=
  {| PT_input := 18.5; D_Dimer_input := 3.2; APTT_input := 55.0; MPV_input := 12.5;
     calculate_clicked := true; demo_clicked := false; today := "2026-01-01" |}.

(** What the sidebar and the form write in every run (lines 282-374). *)
Definition form_page : list element :=
  [ StHtml AboutCard; StHtml NotesCard; StHtml MainHeader; StHtml Subtitle;
    StHtml CardOpen; StHtml (SubHeader "📝 Patient Parameters");
    StNumberInput "**Prothrombin Time (PT)**";
    StNumberInput "**D-Dimer**";
    StNumberInput "**Activated Partial Thromboplastin Time (APTT)**";
    StNumberInput "**Mean Platelet Volume (MPV)**";
    StButton "🔍 Calculate DIC Risk";
    StHtml DivClose ].


(** An element that displays a risk: a metric, a gauge, the tier block, the
    parameter cards, or any markdown other than the five lines of the footer
    (the tier heading and its sentence, the recommendation title, the bullets
    and the immediate considerations are all markdown). *)
Definition risk_display (e : element) : bool :=
  match e with
  | StMetric _ _ => true
  | StHtml (RiskGauge _) => true
  | StHtml (RiskDivOpen _) => true
  | StHtml (ParameterDisplay _) => true
  | StMarkdown body =>
      negb (existsb (String.eqb body)
              ["---"; "**⚠️ Disclaimer**"; "*Clinical decision support tool only*";
               "**📅 Version**"]
            || starts_with "PADM v1.0 • " body)
  | _ => false
  end.

(** No element of the page displays a risk. *)
Definition no_risk_display (p : list element) : bool :=
  forallb (fun e => negb (risk_display e)) p.

(** ** Risk gauge (lines 176-203) *)

(** Python's [min(a, b)] and [max(a, b)] for two arguments: the first one,
    unless the second is strictly smaller (larger); with a NaN the tests are
    false and the first argument is kept. *)
Definition py_min (a b : float) : float := if F64.lt b a then b else a.
Definition py_max (a b : float) : float := if F64.gt b a then b else a.

(** The numbers of the gauge.  The HTML shows [probability * 100] three
    times, as the width of the bar, as the place of the marker and as the
    score; the three segment widths are the locals of lines 179-181, which
    the HTML does not use. *)
Record gauge := {
  low_width : float;
  medium_width : float;
  high_width : float;
  bar_width : float;
  marker_left : float;
  risk_score : float
}.

(** [create_risk_gauge(probability)]; the integers 100, 64 and 0 act as the
    floats of the same value. *)
Definition create_risk_gauge (probability : float) : gauge :=
  let low_width := py_min 22.2 (probability * 100) in
  let medium_width := py_min (64 - 22.2) (py_max 0 (probability * 100 - 22.2)) in
  let high_width := py_max 0 (probability * 100 - 64) in
  {| low_width := low_width;
     medium_width := medium_width;
     high_width := high_width;
     bar_width := probability * 100;
     marker_left := probability * 100;
     risk_score := probability * 100 |}%float.

(** ** Vocabulary of the further properties *)

(** The category id of a result of [get_risk_level]. *)
Definition risk_idx_of (r : outcome (string * string * Z)) : option Z :=
  match r with
  | Returns (_, _, id) => Some id
  | Raises _ => None
  end.

(** A session whose stored panel, if one is stored, has its four keys. *)
Definition session_ok (s : session_state) : Prop :=
  prediction_made s = true -> exists df, panel_frame (input_values s) = Returns df.

(** Successive runs of the script, each on the session the previous one
    left, with what [joblib.load] does and what the user does in each; the
    result of every run is kept. *)
Fixpoint run_all (steps : list (outcome (list (string * classifier)) * interaction))
    (s : session_state) : list (outcome unit) :=
  match steps with
  | [] => []
  | (artifact, i) :: rest =>
      let r := run artifact i s in
      fst r :: run_all rest (session (snd r))
  end.

(** A call that returns whatever the world, and one that leaves the session
    as it found it. *)
Definition never_raises {A : Type} (m : ui A) : Prop :=
  forall w, exists a, fst (m w) = Returns a.

Definition keeps_session {A : Type} (m : ui A) : Prop :=
  forall w, session (snd (m w)) = session w.

(** The text of the risk-level metric that belongs to a category id. *)
Definition metric_of_id (id : Z) : string :=
  match id with
  | 0%Z => "🟢 LOW"
  | 1%Z => "🟡 MEDIUM"
  | _ => "🔴 HIGH"
  end.

(** * Properties *)

(** ** Order facts about binary64 comparisons *)

Module F64Facts.
Import F64.

Lemma compare_cont_eq (m1 m2 : positive) :
  Pos.compare_cont Eq m1 m2 = (m1 ?= m2)%positive.
Proof. reflexivity. Qed.

Ltac rank_case :=
  split;
  [ first [ discriminate | intros _; first [lia | exact I] ]
  | first [ intros _; reflexivity | intros ?; exfalso; first [lia | assumption] ] ].

Ltac rank_cases x y :=
  let m1 := fresh "m" in let e1 := fresh "e" in
  let m2 := fresh "m" in let e2 := fresh "e" in
  destruct x as [[]|[]| |[] m1 e1], y as [[]|[]| |[] m2 e2]; simpl;
  try rewrite compare_cont_eq;
  try (destruct (Z.compare_spec e1 e2); destruct (Pos.compare_spec m1 m2); simpl);
  rank_case.

(** [SFcompare] is the lexicographic comparison of the ranks. *)
Lemma SFltb_rank (x y : spec_float) : SFltb x y = true <-> rank_rel lex_lt x y.
Proof. unfold SFltb, rank_rel, lex_lt. rank_cases x y. Qed.

Lemma SFleb_rank (x y : spec_float) : SFleb x y = true <-> rank_rel lex_le x y.
Proof. unfold SFleb, rank_rel, lex_le. rank_cases x y. Qed.

Lemma SFeqb_rank (x y : spec_float) : SFeqb x y = true <-> rank_rel lex_eq x y.
Proof. unfold SFeqb, rank_rel, lex_eq. rank_cases x y. Qed.

Lemma lt_rank (a b : float) : lt a b = true <-> rank_rel lex_lt (Prim2SF a) (Prim2SF b).
Proof. unfold lt. rewrite ltb_spec. apply SFltb_rank. Qed.

Lemma le_rank (a b : float) : le a b = true <-> rank_rel lex_le (Prim2SF a) (Prim2SF b).
Proof. unfold le. rewrite leb_spec. apply SFleb_rank. Qed.

Lemma eq_rank (a b : float) : eq a b = true <-> rank_rel lex_eq (Prim2SF a) (Prim2SF b).
Proof. unfold eq. rewrite FloatAxioms.eqb_spec. apply SFeqb_rank. Qed.

Lemma gt_lt (a b : float) : gt a b = lt b a.
Proof. reflexivity. Qed.

(** A float that is not NaN has a rank. *)
Lemma not_nan_rank (a : float) :
  is_nan a = false -> exists r, rank (Prim2SF a) = Some r.
Proof.
  unfold is_nan, PrimFloat.is_nan. intros H. apply negb_false_iff in H.
  apply (eq_rank a a) in H. unfold rank_rel in H.
  destruct (rank (Prim2SF a)) as [r|]; [now exists r | contradiction].
Qed.

(** Turns true comparisons into arithmetic on ranks and lets [lia] finish. *)
Ltac by_rank :=
  rewrite ?gt_lt in *;
  repeat match goal with
         | H : lt _ _ = true |- _ => apply lt_rank in H
         | H : le _ _ = true |- _ => apply le_rank in H
         | H : eq _ _ = true |- _ => apply eq_rank in H
         | |- lt _ _ = true => apply lt_rank
         | |- le _ _ = true => apply le_rank
         | |- eq _ _ = true => apply eq_rank
         end;
  unfold rank_rel, lex_lt, lex_le, lex_eq in *;
  repeat match goal with
         | H : context [rank ?x] |- _ => destruct (rank x) as [[[? ?] ?]|]
         | |- context [rank ?x] => destruct (rank x) as [[[? ?] ?]|]
         end;
  try contradiction; try lia.

Lemma le_trans (a b c : float) : le a b = true -> le b c = true -> le a c = true.
Proof. intros. by_rank. Qed.

Lemma le_lt_trans (a b c : float) : le a b = true -> lt b c = true -> lt a c = true.
Proof. intros. by_rank. Qed.

Lemma lt_le_trans (a b c : float) : lt a b = true -> le b c = true -> lt a c = true.
Proof. intros. by_rank. Qed.

Lemma lt_trans (a b c : float) : lt a b = true -> lt b c = true -> lt a c = true.
Proof. intros. by_rank. Qed.

Lemma lt_le_incl (a b : float) : lt a b = true -> le a b = true.
Proof. intros. by_rank. Qed.

Lemma lt_not_le (a b : float) : lt a b = true -> le b a = false.
Proof. intros H. destruct (le b a) eqn:E; [exfalso; by_rank | reflexivity]. Qed.

Lemma le_not_lt (a b : float) : le a b = true -> lt b a = false.
Proof. intros H. destruct (lt b a) eqn:E; [exfalso; by_rank | reflexivity]. Qed.

Lemma lt_asym (a b : float) : lt a b = true -> lt b a = false.
Proof. intros H. apply le_not_lt, lt_le_incl, H. Qed.

(** Two numbers are comparable; only NaN is not. *)
Lemma lt_or_ge (a b : float) :
  is_nan a = false -> is_nan b = false -> lt a b = true \/ le b a = true.
Proof.
  intros Ha Hb. apply not_nan_rank in Ha as [[[a1 a2] a3] Ha], Hb as [[[b1 b2] b3] Hb].
  rewrite lt_rank, le_rank. unfold rank_rel, lex_lt, lex_le. rewrite Ha, Hb. lia.
Qed.

(** Away from NaN, [!=] is [<] or [>]. *)
Lemma ne_lt_or_gt (a b : float) :
  is_nan a = false -> is_nan b = false ->
  ne a b = true <-> (lt a b = true \/ gt a b = true).
Proof.
  intros Ha Hb. apply not_nan_rank in Ha as [[[a1 a2] a3] Ha], Hb as [[[b1 b2] b3] Hb].
  unfold ne. fold (eq a b). rewrite negb_true_iff, gt_lt, !lt_rank.
  destruct (eq a b) eqn:E.
  - apply eq_rank in E. unfold rank_rel, lex_lt, lex_eq in *. rewrite Ha, Hb in *.
    split; [discriminate | lia].
  - split; [intros _ | reflexivity].
    assert (N : ~ rank_rel lex_eq (Prim2SF a) (Prim2SF b))
      by (rewrite <- eq_rank, E; discriminate).
    unfold rank_rel, lex_lt, lex_eq in *. rewrite Ha, Hb in *. lia.
Qed.

End F64Facts.

Example literal_0_222 : Prim2SF 0.222 = S754_finite false 7998392938210001 (-55).
Proof. reflexivity. Qed.

Example literal_0_64 : Prim2SF 0.64 = S754_finite false 5764607523034235 (-53).
Proof. reflexivity. Qed.

(** ** Threshold mapper *)

Section ThresholdMapper.
Import F64Facts.

Local Abbreviation Low := (Returns ("Low Risk", "risk-low", 0%Z)).
Local Abbreviation Medium := (Returns ("Medium Risk", "risk-medium", 1%Z)).
Local Abbreviation High := (Returns ("High Risk", "risk-high", 2%Z)).

(** With the default thresholds the function is its two tests. *)
Lemma get_risk_level_default (p : float) :
  get_risk_level p default_thresholds =
  if F64.lt p 0.222 then Low else if F64.le p 0.64 then Medium else High.
Proof. reflexivity. Qed.

Lemma get_risk_level_low (p : float) :
  F64.lt p 0.222 = true -> get_risk_level p default_thresholds = Low.
Proof. intros H. rewrite get_risk_level_default, H. reflexivity. Qed.

Lemma get_risk_level_medium (p : float) :
  F64.le 0.222 p = true -> F64.le p 0.64 = true ->
  get_risk_level p default_thresholds = Medium.
Proof.
  intros H1 H2. rewrite get_risk_level_default, H2.
  rewrite (le_not_lt _ _ H1). reflexivity.
Qed.

Lemma get_risk_level_high (p : float) :
  F64.lt 0.64 p = true -> get_risk_level p default_thresholds = High.
Proof.
  intros H. rewrite get_risk_level_default, (lt_not_le _ _ H).
  assert (L : F64.le 0.222 p = true).
  { apply lt_le_incl. apply (lt_trans _ 0.64%float); [reflexivity | exact H]. }
  rewrite (le_not_lt _ _ L). reflexivity.
Qed.

(** C1: with the thresholds (0.222, 0.64), a probability in [0, 0.222)
    yields Low, one in [0.222, 0.64] yields Medium and one in (0.64, 1]
    yields High; the two cut points themselves yield Medium. *)
Theorem get_risk_level_tiers (p : float) :
  (F64.le 0 p = true -> F64.lt p 0.222 = true ->
   get_risk_level p default_thresholds = Low) /\
  (F64.le 0.222 p = true -> F64.le p 0.64 = true ->
   get_risk_level p default_thresholds = Medium) /\
  (F64.lt 0.64 p = true -> F64.le p 1 = true ->
   get_risk_level p default_thresholds = High) /\
  get_risk_level 0.222 default_thresholds = Medium /\
  get_risk_level 0.64 default_thresholds = Medium.
Proof.
  split; [| split; [| split; [| split]]].
  - intros _. apply get_risk_level_low.
  - apply get_risk_level_medium.
  - intros H _. apply get_risk_level_high, H.
  - reflexivity.
  - reflexivity.
Qed.

Lemma get_risk_level_tiers_witness :
  get_risk_level 0.1 default_thresholds = Low /\
  get_risk_level 0.5 default_thresholds = Medium /\
  get_risk_level 0.9 default_thresholds = High.
Proof.
  split; [| split].
  - apply (proj1 (get_risk_level_tiers 0.1)); reflexivity.
  - apply (proj1 (proj2 (get_risk_level_tiers 0.5))); reflexivity.
  - apply (proj1 (proj2 (proj2 (get_risk_level_tiers 0.9)))); reflexivity.
Defined.

(** C2, as stated, fails: a probability outside [0,1] is mapped to a tier
    like any other, -0.01 to Low and 1.01 to High; nothing is raised. *)
Lemma get_risk_level_outside_unit_returns :
  F64.lt (-0.01) 0 = true /\
  get_risk_level (-0.01) default_thresholds = Low /\
  F64.gt 1.01 1 = true /\
  get_risk_level 1.01 default_thresholds = High.
Proof. repeat split; reflexivity. Qed.

(** C2, amended: [get_risk_level] with the default thresholds returns a
    tier for every float and never raises; below 0 the tier is Low and
    above 1 it is High. *)
Theorem get_risk_level_total (p : float) :
  (exists t, get_risk_level p default_thresholds = Returns t) /\
  (F64.lt p 0 = true -> get_risk_level p default_thresholds = Low) /\
  (F64.gt p 1 = true -> get_risk_level p default_thresholds = High).
Proof.
  split; [| split].
  - rewrite get_risk_level_default.
    destruct (F64.lt p 0.222); [| destruct (F64.le p 0.64)]; eexists; reflexivity.
  - intros H. apply get_risk_level_low.
    apply (lt_trans _ 0%float); [exact H | reflexivity].
  - intros H. apply get_risk_level_high.
    rewrite gt_lt in H. apply (lt_trans _ 1%float); [reflexivity | exact H].
Qed.

Lemma get_risk_level_total_witness :
  get_risk_level (-0.01) default_thresholds = Low /\
  get_risk_level 1.01 default_thresholds = High.
Proof.
  split.
  - apply (proj1 (proj2 (get_risk_level_total (-0.01)))); reflexivity.
  - apply (proj2 (proj2 (get_risk_level_total 1.01))); reflexivity.
Defined.

(** NaN fails both tests and falls through to the last branch. *)
Example get_risk_level_nan : get_risk_level nan default_thresholds = High.
Proof. reflexivity. Qed.

(** The id returned is 0, 1 or 2 and the label and class are the ones of
    that id, whatever the float. *)
Lemma get_risk_level_consistent (p : float) :
  exists label class id,
    get_risk_level p default_thresholds = Returns (label, class, id) /\
    tier_of_id id = Some (label, class).
Proof.
  rewrite get_risk_level_default.
  destruct (F64.lt p 0.222); [| destruct (F64.le p 0.64)];
    do 3 eexists; split; reflexivity.
Qed.

(** C9: the category id is monotone in the probability, and the label and
    the CSS class returned with an id are the ones of that id. *)
Theorem get_risk_level_monotone (p q : float) :
  F64.le p q = true ->
  exists lp cp ip lq cq iq,
    get_risk_level p default_thresholds = Returns (lp, cp, ip) /\
    get_risk_level q default_thresholds = Returns (lq, cq, iq) /\
    (ip <= iq)%Z /\
    tier_of_id ip = Some (lp, cp) /\ tier_of_id iq = Some (lq, cq).
Proof.
  intros Hpq. rewrite !get_risk_level_default.
  destruct (F64.lt q 0.222) eqn:Q1.
  - rewrite (le_lt_trans _ _ _ Hpq Q1). do 6 eexists. repeat split. lia.
  - destruct (F64.le q 0.64) eqn:Q2.
    + rewrite (le_trans _ _ _ Hpq Q2).
      destruct (F64.lt p 0.222); do 6 eexists; repeat split; lia.
    + destruct (F64.lt p 0.222); [| destruct (F64.le p 0.64)];
        do 6 eexists; repeat split; lia.
Qed.

Lemma get_risk_level_monotone_witness :
  exists lp cp ip lq cq iq,
    get_risk_level 0.1 default_thresholds = Returns (lp, cp, ip) /\
    get_risk_level 0.9 default_thresholds = Returns (lq, cq, iq) /\
    (ip <= iq)%Z /\
    tier_of_id ip = Some (lp, cp) /\ tier_of_id iq = Some (lq, cq).
Proof. apply (get_risk_level_monotone 0.1 0.9). reflexivity. Defined.

End ThresholdMapper.

(** ** Running the page monad *)

(** Unfolds the operations of [ui] and [outcome], so that a run becomes the
    world it ends in. *)
Ltac ui_unfold :=
  cbv [mbind mret ui_bind ui_ret outcome_bind outcome_ret lift emit
       st_error st_info st_markdown st_html st_metric st_number_input st_button
       get_session set_session bundle_getitem];
  cbn [session page fst snd].

(** ** Recommendation lookup *)

Section RecommendationLookup.

(** C3: the bundle of High Risk has a non-empty list of immediate
    considerations under ["actions"], the bundles of Low Risk and Medium Risk
    have no such key, and the bundle of each tier has a title and a non-empty
    list of recommendations. *)
Theorem recommendations_by_tier :
  (exists a, actions (get_clinical_recommendations "High Risk") = Some a /\ a <> []) /\
  actions (get_clinical_recommendations "Low Risk") = None /\
  actions (get_clinical_recommendations "Medium Risk") = None /\
  Forall (fun risk_level =>
            exists t r,
              title (get_clinical_recommendations risk_level) = Some t /\
              recommendations (get_clinical_recommendations risk_level) = Some r /\
              r <> [])
         tier_labels.
Proof.
  split; [| split; [| split]].
  - eexists. split; [vm_compute; reflexivity | discriminate].
  - vm_compute. reflexivity.
  - vm_compute. reflexivity.
  - repeat constructor; do 2 eexists;
      (split; [vm_compute; reflexivity | split; [vm_compute; reflexivity | discriminate]]).
Qed.

Lemma get_clinical_recommendations_unknown (risk_level : string) :
  ~ In risk_level tier_labels ->
  get_clinical_recommendations risk_level = empty_bundle.
Proof.
  intros Hn. unfold get_clinical_recommendations, recommendations_dict.
  rewrite !lookup_insert_ne, lookup_empty; [reflexivity | ..];
    intros <-; apply Hn; simpl; tauto.
Qed.

(** C7, as stated, fails: for a label that is no tier the lookup returns the
    empty dictionary, and the card that [main] draws from it is empty; no
    call raises. *)
Lemma unknown_tier_returns_empty :
  ~ In "Critical Risk" tier_labels /\
  get_clinical_recommendations "Critical Risk" = empty_bundle /\
  show_recommendations "Critical Risk" {| session := initial_session; page := [] |} =
  (Returns tt, {| session := initial_session; page := [StHtml CardOpen; StHtml DivClose] |}).
Proof.
  split; [| split].
  - simpl. intuition discriminate.
  - vm_compute. reflexivity.
  - vm_compute. reflexivity.
Qed.

(** C7, amended: for every label other than the three tiers the lookup
    returns the empty dictionary, which is false as a condition, so that the
    caller writes an empty card and returns. *)
Theorem unknown_tier_empty_bundle (risk_level : string) :
  ~ In risk_level tier_labels ->
  get_clinical_recommendations risk_level = empty_bundle /\
  bundle_truthy (get_clinical_recommendations risk_level) = false /\
  forall w, show_recommendations risk_level w =
            (Returns tt, {| session := session w;
                            page := page w ++ [StHtml CardOpen; StHtml DivClose] |}).
Proof.
  intros Hn. pose proof (get_clinical_recommendations_unknown _ Hn) as E.
  split; [exact E | split; [rewrite E; reflexivity |]].
  intros w. unfold show_recommendations. rewrite E. cbn. ui_unfold.
  rewrite <- app_assoc. reflexivity.
Qed.

Lemma unknown_tier_empty_bundle_witness :
  get_clinical_recommendations "Critical Risk" = empty_bundle.
Proof.
  apply (unknown_tier_empty_bundle "Critical Risk").
  vm_compute. intuition discriminate.
Defined.

End RecommendationLookup.

(** ** Parameter normalcy check *)

Section NormalcyCheck.
Import F64Facts.

(** A value inside the closed interval is not abnormal. *)
Lemma is_abnormal_inside (value lo hi : float) :
  F64.le lo value = true -> F64.le value hi = true ->
  is_abnormal value lo hi = false.
Proof.
  intros H1 H2. unfold is_abnormal.
  rewrite gt_lt, (le_not_lt _ _ H1), (le_not_lt _ _ H2). reflexivity.
Qed.

Lemma normal_ranges_reference (param : string) (lo hi : float) :
  In (param, (lo, hi)) reference_ranges -> normal_ranges !! param = Some (lo, hi).
Proof.
  simpl. intros [E | [E | [E | [E | []]]]]; inversion E; subst; vm_compute; reflexivity.
Qed.

(** The card of the entry at place [k] of the dictionary is the card at
    place [k] of the display. *)
Lemma display_lookup (values : list (string * float)) (k : nat) (param : string)
    (value : float) :
  values !! k = Some (param, value) ->
  create_parameter_display values !! k = Some (parameter_card_of param value).
Proof.
  revert k. induction values as [| [p v] rest IH]; intros k H; [discriminate |].
  destruct k as [| k]; cbn in H |- *.
  - injection H as -> ->. reflexivity.
  - apply IH, H.
Qed.

Lemma display_length (values : list (string * float)) :
  length (create_parameter_display values) = length values.
Proof. unfold create_parameter_display. apply length_map. Qed.

(** C4: for any dictionary of values, the card that [create_parameter_display]
    draws for an entry named PT, APTT, D-Dimer or MPV is drawn against the
    static range of that parameter and is abnormal exactly when
    [value < normal_min or value > normal_max]; a value within the bounds,
    the bounds included, is normal; and every parameter of the panel
    PT 12.0, APTT 30.0, D-Dimer 0.5, MPV 10.0 is marked normal. *)
Theorem normalcy_check (values : list (string * float)) (k : nat) (param : string)
    (lo hi value : float) :
  values !! k = Some (param, value) ->
  In (param, (lo, hi)) reference_ranges ->
  (exists c,
     create_parameter_display values !! k = Some c /\
     card_param c = param /\
     card_normal_min c = lo /\
     card_normal_max c = hi /\
     card_status c =
       (if F64.lt value lo || F64.gt value hi then "⚠️ ABNORMAL" else "✓ NORMAL") /\
     card_color c =
       (if F64.lt value lo || F64.gt value hi then "#dc3545" else "#28a745") /\
     (F64.le lo value = true -> F64.le value hi = true ->
      card_status c = "✓ NORMAL")) /\
  length (create_parameter_display values) = length values /\
  map (fun c => (card_param c, card_status c))
      (create_parameter_display
         [("PT", 12.0); ("APTT", 30.0); ("D-Dimer", 0.5); ("MPV", 10.0)]%float) =
  [("PT", "✓ NORMAL"); ("APTT", "✓ NORMAL"); ("D-Dimer", "✓ NORMAL"); ("MPV", "✓ NORMAL")].
Proof.
  intros Hk Hin. apply normal_ranges_reference in Hin.
  split; [| split; [apply display_length | vm_compute; reflexivity]].
  exists (parameter_card_of param value).
  split; [apply display_lookup, Hk |].
  unfold parameter_card_of. rewrite Hin. cbn.
  repeat split.
  intros H1 H2. rewrite (is_abnormal_inside _ _ _ H1 H2). reflexivity.
Qed.

Lemma normalcy_check_witness :
  exists c,
    create_parameter_display
      [("PT", 18.5); ("APTT", 30.0); ("D-Dimer", 0.5); ("MPV", 10.0)]%float !! 2%nat = Some c /\
    card_status c = "✓ NORMAL".
Proof.
  destruct (normalcy_check
              [("PT", 18.5); ("APTT", 30.0); ("D-Dimer", 0.5); ("MPV", 10.0)]%float
              2 "D-Dimer" 0.0 0.5 0.5)
    as [(c & Hc & _ & _ & _ & _ & _ & Hn) _].
  - reflexivity.
  - simpl. right. right. left. reflexivity.
  - exists c. split; [exact Hc | apply Hn; reflexivity].
Defined.

Lemma normal_ranges_unknown (param : string) :
  ~ In param ["PT"; "APTT"; "D-Dimer"; "MPV"] -> normal_ranges !! param = None.
Proof.
  intros Hn. unfold normal_ranges.
  rewrite !lookup_insert_ne, lookup_empty; [reflexivity | ..];
    intros <-; apply Hn; simpl; tauto.
Qed.

(** C10, as stated, fails: for a name that is none of the four, a NaN value
    differs from zero and its card is still drawn as normal, both tests of
    line 256 being false. *)
Lemma unknown_parameter_nan :
  ~ In "Fibrinogen" ["PT"; "APTT"; "D-Dimer"; "MPV"] /\
  F64.ne nan 0 = true /\
  map (fun c => (card_param c, card_status c))
      (create_parameter_display [("Fibrinogen", nan)]) =
  [("Fibrinogen", "✓ NORMAL")].
Proof.
  split; [simpl; intuition discriminate | split; reflexivity].
Qed.

(** C10, amended: for any dictionary of values, an entry whose name is none
    of PT, APTT, D-Dimer, MPV gets its card without any lookup error, drawn
    against the default range (0, 0): the card is abnormal exactly when
    [value < 0 or value > 0], which for a value that is a number is exactly
    when the value is not zero, while a NaN value is drawn as normal. *)
Theorem unknown_parameter_default_range (values : list (string * float)) (k : nat)
    (param : string) (value : float) :
  values !! k = Some (param, value) ->
  ~ In param ["PT"; "APTT"; "D-Dimer"; "MPV"] ->
  exists c,
    create_parameter_display values !! k = Some c /\
    card_param c = param /\
    card_normal_min c = 0%float /\
    card_normal_max c = 0%float /\
    card_status c =
      (if F64.lt value 0 || F64.gt value 0 then "⚠️ ABNORMAL" else "✓ NORMAL") /\
    card_color c =
      (if F64.lt value 0 || F64.gt value 0 then "#dc3545" else "#28a745") /\
    (F64.is_nan value = false ->
     (card_status c = "⚠️ ABNORMAL" <-> F64.ne value 0 = true)) /\
    (F64.is_nan value = true -> card_status c = "✓ NORMAL").
Proof.
  intros Hk Hn. exists (parameter_card_of param value).
  split; [apply display_lookup, Hk |].
  unfold parameter_card_of. rewrite (normal_ranges_unknown _ Hn). cbn.
  fold (is_abnormal value 0 0).
  repeat split.
  - pose proof (ne_lt_or_gt value 0 H eq_refl) as N.
    intros A. apply N. apply orb_true_iff.
    destruct (is_abnormal value 0 0) eqn:E; [exact E | discriminate A].
  - pose proof (ne_lt_or_gt value 0 H eq_refl) as N.
    intros A. apply N, orb_true_iff in A. unfold is_abnormal. rewrite A. reflexivity.
  - intros N. unfold is_abnormal. rewrite gt_lt.
    destruct (F64.lt value 0) eqn:L1.
    + apply lt_rank in L1. exfalso.
      unfold F64.is_nan, PrimFloat.is_nan in N. apply negb_true_iff in N.
      fold (F64.eq value value) in N.
      assert (T : F64.eq value value = true).
      { apply eq_rank. unfold F64.rank_rel, F64.lex_lt, F64.lex_eq in *.
        destruct (F64.rank (Prim2SF value)) as [[[x y] z]|]; [lia | contradiction]. }
      congruence.
    + destruct (F64.lt 0 value) eqn:L2; [| reflexivity].
      apply lt_rank in L2. exfalso.
      unfold F64.is_nan, PrimFloat.is_nan in N. apply negb_true_iff in N.
      fold (F64.eq value value) in N.
      assert (T : F64.eq value value = true).
      { apply eq_rank. unfold F64.rank_rel, F64.lex_lt, F64.lex_eq in *.
        destruct (F64.rank (Prim2SF 0)) as [[[a b] c]|]; [| contradiction].
        destruct (F64.rank (Prim2SF value)) as [[[x y] z]|]; [lia | contradiction]. }
      congruence.
Qed.

Lemma unknown_parameter_default_range_witness :
  exists c,
    create_parameter_display [("PT", 12.0); ("Fibrinogen", 2.5)]%float !! 1%nat = Some c /\
    card_status c = "⚠️ ABNORMAL".
Proof.
  destruct (unknown_parameter_default_range
              [("PT", 12.0); ("Fibrinogen", 2.5)]%float 1 "Fibrinogen" 2.5)
    as (c & Hc & _ & _ & _ & _ & _ & Hn & _).
  - reflexivity.
  - vm_compute. intuition discriminate.
  - exists c. split; [exact Hc | apply Hn; reflexivity].
Defined.

End NormalcyCheck.

(** ** The script run *)

Section ScriptRun.

(** The run of a loaded model once a panel is stored, up to the prediction. *)
Lemma run_predicting (model_info : list (string * classifier)) (i : interaction)
    (s : session_state) (df : input_df) :
  prediction_made (after_form i s) = true ->
  panel_frame (input_values (after_form i s)) = Returns df ->
  run (Returns model_info) i s =
  ((probability ← predict_risk model_info df;
    match probability : option float with
    | Some probability => show_results probability
    | None => mret tt
    end);;
   show_footer (today i))
    {| session := after_form i s; page := form_page |}.
Proof.
  unfold run, main, after_form, load_model. ui_unfold.
  destruct (calculate_clicked i); cbn [session page];
    intros Hm Hf; rewrite Hm, Hf; reflexivity.
Qed.

(** C6: when the loaded model gives probability 0.75 for the stored panel,
    the run shows the High tier, and the bundle of that tier, whose title
    names high risk and whose recommendations include an urgent consultation,
    is what the page lists. *)
Theorem end_to_end_high_risk (model_info : list (string * classifier)) (i : interaction)
    (s : session_state) (df : input_df) :
  prediction_made (after_form i s) = true ->
  panel_frame (input_values (after_form i s)) = Returns df ->
  predict_attempt model_info df = Returns 0.75%float ->
  get_risk_level 0.75 default_thresholds = Returns ("High Risk", "risk-high", 2%Z) /\
  exists t recs a w,
    title (get_clinical_recommendations "High Risk") = Some t /\
    contains "High Risk" t = true /\
    recommendations (get_clinical_recommendations "High Risk") = Some recs /\
    In a recs /\
    contains "Urgent consultation" a = true /\
    run (Returns model_info) i s = (Returns tt, w) /\
    In (StMetric "**Risk Level**" (Text "🔴 HIGH")) (page w) /\
    In (StHtml (RiskDivOpen "risk-high")) (page w) /\
    In (StMarkdown "### High Risk") (page w) /\
    In (StMarkdown ("### " ++ t)) (page w) /\
    In (StMarkdown ("• " ++ a)) (page w) /\
    no_risk_display (page w) = false.
Proof.
  intros Hm Hf Hp. split; [reflexivity |].
  destruct (run (Returns model_info) i s) as [r w] eqn:R.
  rewrite (run_predicting _ _ _ _ Hm Hf) in R. unfold predict_risk in R. rewrite Hp in R.
  vm_compute in R. injection R as <- <-.
  exists "🔴 High Risk Clinical Recommendations".
  eexists.
  exists "🚨 **Immediate Action: Urgent consultation required**".
  eexists.
  split; [vm_compute; reflexivity |].
  split; [vm_compute; reflexivity |].
  split; [vm_compute; reflexivity |].
  split; [left; reflexivity |].
  split; [vm_compute; reflexivity |].
  split; [reflexivity |].
  cbn [page].
  repeat split; try reflexivity; repeat (first [left; reflexivity | right]).
Qed.

Lemma end_to_end_high_risk_witness :
  exists w, run (Returns (stub_model 0.75)) submit_demo_panel initial_session = (Returns tt, w) /\
            In (StMarkdown "### High Risk") (page w).
Proof.
  destruct (end_to_end_high_risk (stub_model 0.75) submit_demo_panel initial_session
              [("PT", [18.5]); ("APTT", [55.0]); ("D-Dimer", [3.2]); ("MPV", [12.5])]%float)
    as [_ (t & recs & a & w & _ & _ & _ & _ & _ & R & _ & _ & Hw & _ & _ & _)];
    [reflexivity | reflexivity | reflexivity |].
  exists w. split; [exact R | exact Hw].
Defined.



(** C5, what the code does: when the model cannot be loaded, a run writes the
    form, the two errors, the hint and the demo button, stores the example
    panel if that button was clicked, and returns; whatever the session, the
    stored example panel included, the page displays no risk. *)
Theorem missing_model_withholds_display (e : exn) (i : interaction) (s : session_state) :
  run (Raises e) i s =
    (Returns tt,
     {| session := if demo_clicked i then demo_session else after_form i s;
        page := form_page ++
                [ StError ("Error loading model: " ++ str_exn e);
                  StError "Failed to load the prediction model. Please ensure PADM_model.pkl exists.";
                  StInfo "If you don't have a trained model, you can use the demo mode below.";
                  StButton "🔄 Use Demo Mode" ] |}) /\
  no_risk_display (page (snd (run (Raises e) i s))) = true /\
  no_risk_display (page (snd (run (Raises e) i demo_session))) = true.
Proof.
  assert (R : forall s', run (Raises e) i s' =
    (Returns tt,
     {| session := if demo_clicked i then demo_session else after_form i s';
        page := form_page ++
                [ StError ("Error loading model: " ++ str_exn e);
                  StError "Failed to load the prediction model. Please ensure PADM_model.pkl exists.";
                  StInfo "If you don't have a trained model, you can use the demo mode below.";
                  StButton "🔄 Use Demo Mode" ] |})).
  { intros s'. unfold run, main, after_form, load_model, demo_session. ui_unfold.
    destruct (calculate_clicked i), (demo_clicked i); reflexivity. }
  split; [apply R | split; rewrite R; reflexivity].
Qed.

End ScriptRun.

(** * Further properties *)

(** ** Threshold mapper with any thresholds *)

Section ThresholdsAtLarge.
Import F64Facts.

Local Abbreviation Low := (Returns ("Low Risk", "risk-low", 0%Z)).
Local Abbreviation Medium := (Returns ("Medium Risk", "risk-medium", 1%Z)).
Local Abbreviation High := (Returns ("High Risk", "risk-high", 2%Z)).

Lemma get_risk_level_two (p t0 t1 : float) (rest : list float) :
  get_risk_level p (t0 :: t1 :: rest) =
  if F64.lt p t0 then Low else if F64.le p t1 then Medium else High.
Proof. reflexivity. Qed.

Lemma get_risk_level_one (p t0 : float) :
  get_risk_level p [t0] =
  if F64.lt p t0 then Low else Raises (IndexError "list index out of range").
Proof. reflexivity. Qed.

(** Every comparison with NaN is false. *)
Lemma nan_compare (p a : float) :
  F64.is_nan p = true ->
  F64.lt p a = false /\ F64.le p a = false /\ F64.lt a p = false /\ F64.le a p = false.
Proof.
  intros N. unfold F64.is_nan, PrimFloat.is_nan in N. apply negb_true_iff in N.
  fold (F64.eq p p) in N.
  assert (R : F64.rank (Prim2SF p) = None).
  { destruct (F64.rank (Prim2SF p)) as [[[x y] z]|] eqn:E; [| reflexivity].
    exfalso. assert (T : F64.eq p p = true).
    { apply eq_rank. unfold F64.rank_rel, F64.lex_eq. rewrite E. lia. }
    congruence. }
  repeat split.
  all: match goal with |- ?c = false => destruct c eqn:C; [| reflexivity] end.
  all: first [apply lt_rank in C | apply le_rank in C];
    unfold F64.rank_rel in C; rewrite R in C;
    try destruct (F64.rank (Prim2SF a)); contradiction.
Qed.

(** X1: [get_risk_level] raises exactly when a threshold it reads is
    missing: always on the empty list, and on a list of one threshold when
    the probability is not below it (below it the answer is Low and the
    second threshold is never read); with two thresholds or more it returns,
    and the thresholds after the second are ignored. *)
Theorem get_risk_level_thresholds_read (p : float) (thresholds : list float) :
  (exists e, get_risk_level p thresholds = Raises e) <->
  (thresholds = [] \/ exists t0, thresholds = [t0] /\ F64.lt p t0 = false).
Proof.
  destruct thresholds as [| t0 [| t1 rest]].
  - split; [intros _; left; reflexivity | intros _; eexists; reflexivity].
  - rewrite get_risk_level_one. destruct (F64.lt p t0) eqn:L.
    + split; [intros [e H]; discriminate |].
      intros [H | (t & H & Hf)]; [discriminate |].
      injection H as <-. congruence.
    + split; [intros _; right; exists t0; split; [reflexivity | exact L]
             | intros _; eexists; reflexivity].
  - rewrite get_risk_level_two. split.
    + intros [e H]. destruct (F64.lt p t0); [| destruct (F64.le p t1)]; discriminate.
    + intros [H | (t & H & _)]; discriminate.
Qed.

(** X2: whatever the two thresholds (out of order, equal, NaN), the category
    id never decreases when the probability grows. *)
Theorem get_risk_level_monotone_any (p q t0 t1 : float) (rest : list float) :
  F64.le p q = true ->
  exists ip iq,
    risk_idx_of (get_risk_level p (t0 :: t1 :: rest)) = Some ip /\
    risk_idx_of (get_risk_level q (t0 :: t1 :: rest)) = Some iq /\
    (ip <= iq)%Z.
Proof.
  intros Hpq. rewrite !get_risk_level_two.
  destruct (F64.lt q t0) eqn:Q1.
  - rewrite (le_lt_trans _ _ _ Hpq Q1). do 2 eexists. repeat split. lia.
  - destruct (F64.le q t1) eqn:Q2.
    + rewrite (le_trans _ _ _ Hpq Q2).
      destruct (F64.lt p t0); do 2 eexists; repeat split; lia.
    + destruct (F64.lt p t0); [| destruct (F64.le p t1)];
        do 2 eexists; repeat split; lia.
Qed.

Lemma get_risk_level_monotone_any_witness :
  exists ip iq,
    risk_idx_of (get_risk_level 0.3 [0.9; 0.1]%float) = Some ip /\
    risk_idx_of (get_risk_level 0.95 [0.9; 0.1]%float) = Some iq /\
    (ip <= iq)%Z.
Proof. apply (get_risk_level_monotone_any 0.3 0.95 0.9 0.1 []). reflexivity. Defined.

(** X3: the tier tells the interval.  With the default thresholds the
    result is Low exactly below 0.222, Medium exactly from 0.222 to 0.64,
    both included, and High exactly above 0.64 or when the probability is
    NaN. *)
Theorem get_risk_level_inverse (p : float) :
  (get_risk_level p default_thresholds = Low <-> F64.lt p 0.222 = true) /\
  (get_risk_level p default_thresholds = Medium <->
   F64.le 0.222 p = true /\ F64.le p 0.64 = true) /\
  (get_risk_level p default_thresholds = High <->
   F64.gt p 0.64 = true \/ F64.is_nan p = true).
Proof.
  rewrite get_risk_level_default.
  destruct (F64.is_nan p) eqn:N.
  - pose proof (fun a => nan_compare p a N) as A.
    destruct (A 0.222%float) as (A1 & A2 & A3 & A4).
    destruct (A 0.64%float) as (B1 & B2 & B3 & B4).
    rewrite A1, B2, gt_lt, A4.
    repeat split; try discriminate; try (intros [? ?]; discriminate); auto.
  - destruct (F64.lt p 0.222) eqn:L1.
    + assert (L2 : F64.le p 0.64 = true).
      { apply lt_le_incl, (lt_trans _ 0.222%float); [exact L1 | reflexivity]. }
      rewrite gt_lt, (le_not_lt _ _ L2), (lt_not_le _ _ L1).
      repeat split; try discriminate; try (intros [? ?]; discriminate); auto.
      intros [?|?]; discriminate.
    + assert (G1 : F64.le 0.222 p = true).
      { destruct (lt_or_ge p 0.222 N eq_refl) as [H | H]; [congruence | exact H]. }
      rewrite G1, gt_lt. destruct (F64.le p 0.64) eqn:L2.
      * rewrite (le_not_lt _ _ L2).
        repeat split; try discriminate; auto. intros [?|?]; discriminate.
      * assert (G2 : F64.lt 0.64 p = true).
        { destruct (lt_or_ge 0.64 p eq_refl N) as [H | H]; [exact H | congruence]. }
        rewrite G2.
        repeat split; try discriminate; try (intros [? ?]; discriminate); auto.
Qed.

(** X4: when the second threshold is below the first, no probability is
    Medium: the list must be in order for the middle tier to exist. *)
Theorem get_risk_level_inverted_thresholds (p t0 t1 : float) (rest : list float) :
  F64.lt t1 t0 = true ->
  get_risk_level p (t0 :: t1 :: rest) <> Medium.
Proof.
  intros Hinv. rewrite get_risk_level_two.
  destruct (F64.lt p t0) eqn:L1; [discriminate |].
  destruct (F64.le p t1) eqn:L2; [| discriminate].
  rewrite (le_lt_trans _ _ _ L2 Hinv) in L1. discriminate.
Qed.

Lemma get_risk_level_inverted_thresholds_witness :
  get_risk_level 0.5 [0.64; 0.222]%float <> Medium.
Proof. apply get_risk_level_inverted_thresholds. reflexivity. Defined.

End ThresholdsAtLarge.

(** ** The table behind the tiers *)

Section TableAtLarge.
Import F64Facts.

Lemma tier_label_dec (risk_level : string) :
  {In risk_level tier_labels} + {~ In risk_level tier_labels}.
Proof. apply in_dec, string_dec. Qed.

(** X5: the mapper and the table fit together.  For every float, NaN and
    values outside [0,1] included, the label that [get_risk_level] returns is
    a key of the table: the bundle found is not empty and has a title, a
    colour and a non-empty list of recommendations, so the default [{}] of
    the lookup is never what [main] gets. *)
Theorem mapper_label_has_bundle (p : float) :
  exists label class id t c recs,
    get_risk_level p default_thresholds = Returns (label, class, id) /\
    In label tier_labels /\
    bundle_truthy (get_clinical_recommendations label) = true /\
    title (get_clinical_recommendations label) = Some t /\
    color (get_clinical_recommendations label) = Some c /\
    recommendations (get_clinical_recommendations label) = Some recs /\
    recs <> [].
Proof.
  rewrite get_risk_level_default.
  destruct (F64.lt p 0.222); [| destruct (F64.le p 0.64)];
    do 6 eexists; (split; [reflexivity |]);
    (split; [simpl; tauto |]);
    repeat (split; [vm_compute; reflexivity |]); discriminate.
Qed.

(** X6: the lookup is exact.  The bundle found is non-empty exactly for the
    three labels as they are written; any other string, such as a label in
    another case, gives [{}]. *)
Theorem lookup_truthy_iff_tier (risk_level : string) :
  bundle_truthy (get_clinical_recommendations risk_level) = true <->
  In risk_level tier_labels.
Proof.
  split.
  - intros H. destruct (tier_label_dec risk_level) as [Hin | Hn]; [exact Hin |].
    rewrite (get_clinical_recommendations_unknown _ Hn) in H. discriminate.
  - simpl. intros [<- | [<- | [<- | []]]]; vm_compute; reflexivity.
Qed.

(** X7: the recommendation card never raises, whatever the label, and
    leaves the session alone; the heading of the immediate considerations is
    written exactly for the label High Risk. *)
Theorem show_recommendations_safe (risk_level : string) (s : session_state) :
  exists written,
    show_recommendations risk_level {| session := s; page := [] |} =
    (Returns tt, {| session := s; page := written |}) /\
    (In (StMarkdown "#### ⚡ Immediate Considerations") written <->
     risk_level = "High Risk").
Proof.
  destruct (tier_label_dec risk_level) as [Hin | Hn].
  - simpl in Hin. destruct Hin as [<- | [<- | [<- | []]]];
      (eexists; split; [vm_compute; reflexivity |]);
      (split; [simpl; intuition discriminate |]).
    + discriminate.
    + discriminate.
    + intros _. simpl. do 7 right. left. reflexivity.
  - exists [StHtml CardOpen; StHtml DivClose]. split.
    + unfold show_recommendations. rewrite (get_clinical_recommendations_unknown _ Hn).
      reflexivity.
    + split; [simpl; intuition discriminate |].
      intros ->. exfalso. apply Hn. simpl. tauto.
Qed.

End TableAtLarge.

(** ** Parameter cards for any name and value *)

Section CardsAtLarge.
Import F64Facts.

(** The range used for a name is one of the four static ones or (0, 0); its
    bounds are numbers, in order. *)
Lemma range_used (param : string) :
  exists lo hi,
    default (0, 0)%float (normal_ranges !! param) = (lo, hi) /\
    F64.is_nan lo = false /\ F64.is_nan hi = false /\ F64.le lo hi = true.
Proof.
  unfold normal_ranges.
  destruct (decide (param = "PT")) as [-> | N1];
    [do 2 eexists; split; [vm_compute; reflexivity | repeat split] |].
  destruct (decide (param = "APTT")) as [-> | N2];
    [do 2 eexists; split; [vm_compute; reflexivity | repeat split] |].
  destruct (decide (param = "D-Dimer")) as [-> | N3];
    [do 2 eexists; split; [vm_compute; reflexivity | repeat split] |].
  destruct (decide (param = "MPV")) as [-> | N4];
    [do 2 eexists; split; [vm_compute; reflexivity | repeat split] |].
  rewrite !lookup_insert_ne, lookup_empty by congruence.
  do 2 eexists; split; [reflexivity | repeat split].
Qed.

Lemma parameter_card_of_range (param : string) (value lo hi : float) :
  default (0, 0)%float (normal_ranges !! param) = (lo, hi) ->
  parameter_card_of param value =
    {| card_param := param; card_value := value;
       card_normal_min := lo; card_normal_max := hi;
       card_color := if is_abnormal value lo hi then "#dc3545" else "#28a745";
       card_status := if is_abnormal value lo hi then "⚠️ ABNORMAL" else "✓ NORMAL" |}.
Proof. intros E. unfold parameter_card_of. rewrite E. reflexivity. Qed.

(** X9: a value that is NaN is drawn as normal, whatever the parameter. *)
Theorem nan_value_is_normal (param : string) (value : float) :
  F64.is_nan value = true ->
  card_status (parameter_card_of param value) = "✓ NORMAL".
Proof.
  intros N. destruct (range_used param) as (lo & hi & E & _).
  rewrite (parameter_card_of_range _ value _ _ E). cbn [card_status].
  unfold is_abnormal. rewrite gt_lt.
  destruct (nan_compare value lo N) as (-> & _).
  destruct (nan_compare value hi N) as (_ & _ & -> & _). reflexivity.
Qed.

Lemma nan_value_is_normal_witness :
  card_status (parameter_card_of "PT" nan) = "✓ NORMAL".
Proof. apply nan_value_is_normal. reflexivity. Defined.

(** X10: for a value that is a number, and any parameter name, the card is
    NORMAL exactly when the value lies between the two bounds that the card
    shows, bounds included. *)
Theorem normal_iff_within_shown_range (param : string) (value : float) :
  F64.is_nan value = false ->
  card_status (parameter_card_of param value) = "✓ NORMAL" <->
  F64.le (card_normal_min (parameter_card_of param value)) value = true /\
  F64.le value (card_normal_max (parameter_card_of param value)) = true.
Proof.
  intros N. destruct (range_used param) as (lo & hi & E & Nlo & Nhi & _).
  rewrite (parameter_card_of_range _ value _ _ E).
  cbn [card_status card_normal_min card_normal_max].
  split.
  - intros H. unfold is_abnormal in H. rewrite gt_lt in H.
    destruct (F64.lt value lo) eqn:L1; [discriminate |].
    destruct (F64.lt hi value) eqn:L2; [discriminate |].
    split.
    + destruct (lt_or_ge value lo N Nlo) as [A | A]; [congruence | exact A].
    + destruct (lt_or_ge hi value Nhi N) as [A | A]; [congruence | exact A].
  - intros [H1 H2]. rewrite (is_abnormal_inside _ _ _ H1 H2). reflexivity.
Qed.

Lemma normal_iff_within_shown_range_witness :
  card_status (parameter_card_of "MPV" 7.5) = "✓ NORMAL".
Proof.
  apply (normal_iff_within_shown_range "MPV" 7.5); [reflexivity |].
  split; reflexivity.
Defined.

End CardsAtLarge.

(** ** Risk gauge *)

Section Gauge.
Import F64Facts.

Lemma le_refl_number (a : float) : F64.is_nan a = false -> F64.le a a = true.
Proof.
  intros N. destruct (lt_or_ge a a N N) as [H | H]; [| exact H].
  rewrite (lt_asym _ _ H) in H. discriminate.
Qed.

Lemma py_min_le_first (a b : float) :
  F64.is_nan a = false -> F64.le (py_min a b) a = true.
Proof.
  intros N. unfold py_min. destruct (F64.lt b a) eqn:L.
  - apply lt_le_incl, L.
  - apply le_refl_number, N.
Qed.

Lemma py_max_ge_first (a b : float) :
  F64.is_nan a = false -> F64.le a (py_max a b) = true.
Proof.
  intros N. unfold py_max. rewrite gt_lt. destruct (F64.lt a b) eqn:L.
  - apply lt_le_incl, L.
  - apply le_refl_number, N.
Qed.

Lemma py_min_ge (z a b : float) :
  F64.le z a = true -> F64.le z b = true -> F64.le z (py_min a b) = true.
Proof. intros Ha Hb. unfold py_min. destruct (F64.lt b a); assumption. Qed.

(** X11: whatever the probability, NaN and infinities included, the three
    segment widths of the gauge stay in their segments: the low one is at
    most 22.2, the medium one is between 0 and 64 - 22.2, the high one is at
    least 0. *)
Theorem gauge_widths_bounded (probability : float) :
  let g := create_risk_gauge probability in
  F64.le (low_width g) 22.2 = true /\
  F64.le 0 (medium_width g) = true /\
  F64.le (medium_width g) (64 - 22.2) = true /\
  F64.le 0 (high_width g) = true.
Proof.
  cbn [create_risk_gauge low_width medium_width high_width].
  split; [apply py_min_le_first; reflexivity |].
  split; [apply py_min_ge; [reflexivity | apply py_max_ge_first; reflexivity] |].
  split; [apply py_min_le_first; reflexivity |].
  apply py_max_ge_first; reflexivity.
Qed.

End Gauge.

(** ** Calls that return and calls that keep the session *)

Section UiLaws.

Lemma never_raises_bind {A B : Type} (m : ui A) (k : A -> ui B) :
  never_raises m -> (forall a, never_raises (k a)) -> never_raises (m ≫= k).
Proof.
  intros Hm Hk w. unfold mbind, ui_bind.
  destruct (Hm w) as [a Ha]. destruct (m w) as [o w']. cbn in Ha. subst o.
  apply Hk.
Qed.

Lemma keeps_session_bind {A B : Type} (m : ui A) (k : A -> ui B) :
  keeps_session m -> (forall a, keeps_session (k a)) -> keeps_session (m ≫= k).
Proof.
  intros Hm Hk w. unfold mbind, ui_bind.
  pose proof (Hm w) as Hw. destruct (m w) as [[a | e] w']; cbn in Hw.
  - rewrite Hk. exact Hw.
  - exact Hw.
Qed.

Lemma show_recommendations_returns (risk_level : string) :
  never_raises (show_recommendations risk_level) /\
  keeps_session (show_recommendations risk_level).
Proof.
  destruct (tier_label_dec risk_level) as [Hin | Hn].
  - simpl in Hin. destruct Hin as [<- | [<- | [<- | []]]];
      (split; intros w; [exists tt |]; vm_compute; reflexivity).
  - unfold show_recommendations. rewrite (get_clinical_recommendations_unknown _ Hn).
    split; intros w; [exists tt |]; reflexivity.
Qed.

Lemma show_results_returns (probability : float) :
  never_raises (show_results probability) /\ keeps_session (show_results probability).
Proof.
  unfold show_results. rewrite get_risk_level_default.
  destruct (F64.lt probability 0.222); [| destruct (F64.le probability 0.64)];
    (split; intros w; [exists tt |]; vm_compute; reflexivity).
Qed.

Lemma predict_risk_returns (model_info : list (string * classifier)) (df : input_df) :
  never_raises (predict_risk model_info df) /\ keeps_session (predict_risk model_info df).
Proof.
  unfold predict_risk. destruct (predict_attempt model_info df);
    (split; intros w; [eexists |]; reflexivity).
Qed.

Lemma show_footer_returns (date : string) :
  never_raises (show_footer date) /\ keeps_session (show_footer date).
Proof. split; intros w; [exists tt |]; reflexivity. Qed.

Lemma show_placeholder_returns :
  never_raises show_placeholder /\ keeps_session show_placeholder.
Proof. split; intros w; [exists tt |]; reflexivity. Qed.

(** What follows the frame when a panel is stored (lines 404-479 and the
    footer) returns and keeps the session. *)
Lemma prediction_block_returns (model_info : list (string * classifier)) (df : input_df)
    (date : string) :
  let block : ui unit :=
    (probability ← predict_risk model_info df;
     match probability : option float with
     | Some probability => show_results probability
     | None => mret tt
     end);;
    show_footer date in
  never_raises block /\ keeps_session block.
Proof.
  cbn zeta. split.
  - apply never_raises_bind; [apply never_raises_bind |].
    + apply predict_risk_returns.
    + intros [p |]; [apply show_results_returns | intros w; exists tt; reflexivity].
    + intros _. apply show_footer_returns.
  - apply keeps_session_bind; [apply keeps_session_bind |].
    + apply predict_risk_returns.
    + intros [p |]; [apply show_results_returns | intros w; reflexivity].
    + intros _. apply show_footer_returns.
Qed.

End UiLaws.

(** ** Every run of the script *)

Section EveryRun.

Lemma run_missing_model (e : exn) (i : interaction) (s : session_state) :
  run (Raises e) i s =
    (Returns tt,
     {| session := if demo_clicked i then demo_session else after_form i s;
        page := form_page ++
                [ StError ("Error loading model: " ++ str_exn e);
                  StError "Failed to load the prediction model. Please ensure PADM_model.pkl exists.";
                  StInfo "If you don't have a trained model, you can use the demo mode below.";
                  StButton "🔄 Use Demo Mode" ] |}).
Proof.
  unfold run, main, after_form, load_model, demo_session. ui_unfold.
  destruct (calculate_clicked i), (demo_clicked i); reflexivity.
Qed.

Lemma run_placeholder (model_info : list (string * classifier)) (i : interaction)
    (s : session_state) :
  prediction_made (after_form i s) = false ->
  run (Returns model_info) i s =
  (show_placeholder;; show_footer (today i))
    {| session := after_form i s; page := form_page |}.
Proof.
  unfold run, main, after_form, load_model. ui_unfold.
  destruct (calculate_clicked i); cbn [session page prediction_made];
    intros Hm; [discriminate | rewrite Hm; reflexivity].
Qed.

Lemma run_frame_raises (model_info : list (string * classifier)) (i : interaction)
    (s : session_state) (e : exn) :
  prediction_made (after_form i s) = true ->
  panel_frame (input_values (after_form i s)) = Raises e ->
  run (Returns model_info) i s =
  (Raises e, {| session := after_form i s; page := form_page |}).
Proof.
  unfold run, main, after_form, load_model. ui_unfold.
  destruct (calculate_clicked i); cbn [session page];
    intros Hm Hf; rewrite Hm, Hf; reflexivity.
Qed.

Lemma after_form_ok (i : interaction) (s : session_state) :
  session_ok s -> session_ok (after_form i s).
Proof.
  intros Hs. unfold after_form. destruct (calculate_clicked i); [| exact Hs].
  intros _. eexists. reflexivity.
Qed.

(** The session a run leaves, with a loaded model, whether it returns or
    raises. *)
Lemma run_loaded_session (model_info : list (string * classifier)) (i : interaction)
    (s : session_state) :
  session (snd (run (Returns model_info) i s)) = after_form i s.
Proof.
  destruct (prediction_made (after_form i s)) eqn:Hm.
  - destruct (panel_frame (input_values (after_form i s))) as [df | e] eqn:Hf.
    + rewrite (run_predicting _ _ _ _ Hm Hf).
      apply (proj2 (prediction_block_returns model_info df (today i))).
    + rewrite (run_frame_raises _ _ _ _ Hm Hf). reflexivity.
  - rewrite (run_placeholder _ _ _ Hm).
    apply (keeps_session_bind show_placeholder (fun _ => show_footer (today i)));
      [apply show_placeholder_returns | intros _; apply show_footer_returns].
Qed.

Lemma run_session (artifact : outcome (list (string * classifier))) (i : interaction)
    (s : session_state) :
  session (snd (run artifact i s)) =
  match artifact with
  | Raises _ => if demo_clicked i then demo_session else after_form i s
  | Returns _ => after_form i s
  end.
Proof.
  destruct artifact as [model_info | e].
  - apply run_loaded_session.
  - rewrite run_missing_model. reflexivity.
Qed.

Lemma run_ok (artifact : outcome (list (string * classifier))) (i : interaction)
    (s : session_state) :
  session_ok s ->
  fst (run artifact i s) = Returns tt /\ session_ok (session (snd (run artifact i s))).
Proof.
  intros Hs. split.
  - destruct artifact as [model_info | e]; [| rewrite run_missing_model; reflexivity].
    destruct (prediction_made (after_form i s)) eqn:Hm.
    + destruct (after_form_ok i s Hs Hm) as [df Hf].
      rewrite (run_predicting _ _ _ _ Hm Hf).
      destruct (proj1 (prediction_block_returns model_info df (today i))
                  {| session := after_form i s; page := form_page |}) as [[] H].
      exact H.
    + rewrite (run_placeholder _ _ _ Hm).
      destruct (never_raises_bind show_placeholder (fun _ => show_footer (today i))
                  (proj1 show_placeholder_returns)
                  (fun _ => proj1 (show_footer_returns (today i)))
                  {| session := after_form i s; page := form_page |}) as [[] H].
      exact H.
  - rewrite run_session. destruct artifact as [model_info | e].
    + apply after_form_ok, Hs.
    + destruct (demo_clicked i); [| apply after_form_ok, Hs].
      intros _. eexists. reflexivity.
Qed.

End EveryRun.

(** ** What the runs of the script keep and show *)

Section RunsAtLarge.

(** X12: [predict_risk] hands back a probability exactly when the loaded
    dictionary has the key ["model"], the classifier under it returns an
    array for the frame, and that array has a first row with a second
    entry; the probability is that entry, and nothing is written.  The other
    rows and entries are not looked at. *)
Theorem predict_risk_reads_row0_col1 (model_info : list (string * classifier))
    (df : input_df) (w : world) (p : float) :
  predict_risk model_info df w = (Returns (Some p), w) <->
  exists clf proba row,
    dict_getitem model_info "model" = Returns clf /\
    predict_proba clf df = Returns proba /\
    proba !! 0 = Some row /\ row !! 1 = Some p.
Proof.
  unfold predict_risk, predict_attempt, array_getitem2, mbind, outcome_bind.
  destruct (dict_getitem model_info "model") as [clf | e] eqn:E1.
  - destruct (predict_proba clf df) as [proba | e] eqn:E2.
    + destruct (proba !! 0) as [row |] eqn:R0.
      * destruct (row !! 1) as [x |] eqn:R1.
        -- split.
           ++ intros H. injection H as ->. exists clf, proba, row.
              repeat split; first [reflexivity | assumption].
           ++ intros (clf' & proba' & row' & H1 & H2 & H3 & H4).
              injection H1 as <-. rewrite E2 in H2. injection H2 as <-.
              rewrite R0 in H3. injection H3 as <-. rewrite R1 in H4. injection H4 as ->.
              reflexivity.
        -- split; [intros H; discriminate |].
           intros (clf' & proba' & row' & H1 & H2 & H3 & H4).
           injection H1 as <-. rewrite E2 in H2. injection H2 as <-.
           rewrite R0 in H3. injection H3 as <-. rewrite R1 in H4. discriminate.
      * split; [intros H; discriminate |].
        intros (clf' & proba' & row' & H1 & H2 & H3 & H4).
        injection H1 as <-. rewrite E2 in H2. injection H2 as <-.
        rewrite R0 in H3. discriminate.
    + split; [intros H; discriminate |].
      intros (clf' & proba' & row' & H1 & H2 & _). injection H1 as <-.
      rewrite E2 in H2. discriminate.
  - split; [intros H; discriminate |].
    intros (clf' & proba' & row' & H1 & _). discriminate.
Qed.

(** X13: the session that a run leaves.  With a loaded model it is the
    session of the form: the panel just submitted if Calculate was clicked,
    the session found otherwise, and this also when the run raises.  With a
    missing model it is the example panel if the demo button was clicked and
    the session of the form otherwise. *)
Theorem session_after_run (artifact : outcome (list (string * classifier)))
    (i : interaction) (s : session_state) :
  session (snd (run artifact i s)) =
  match artifact with
  | Raises _ => if demo_clicked i then demo_session else after_form i s
  | Returns _ => after_form i s
  end.
Proof. apply run_session. Qed.

(** X14: once a panel is stored it stays stored: no run, with or without a
    model, returning or raising, sets [prediction_made] back to false. *)
Theorem prediction_made_is_kept (artifact : outcome (list (string * classifier)))
    (i : interaction) (s : session_state) :
  prediction_made s = true ->
  prediction_made (session (snd (run artifact i s))) = true.
Proof.
  intros Hs. rewrite run_session. unfold after_form.
  destruct artifact; [| destruct (demo_clicked i); [reflexivity |]];
    destruct (calculate_clicked i); first [reflexivity | exact Hs].
Qed.

Lemma prediction_made_is_kept_witness :
  prediction_made (session (snd (run (Raises (Exception "no file")) submit_demo_panel
                                     demo_session))) = true.
Proof. apply prediction_made_is_kept. reflexivity. Defined.

(** X15: on a session whose stored panel, if any, has its four keys, a run
    returns, whatever the artifact, the model and the user do, and the
    session it leaves is again such a session. *)
Theorem run_returns_and_keeps_ok (artifact : outcome (list (string * classifier)))
    (i : interaction) (s : session_state) :
  session_ok s ->
  fst (run artifact i s) = Returns tt /\
  session_ok (session (snd (run artifact i s))).
Proof. apply run_ok. Qed.

Lemma run_returns_and_keeps_ok_witness :
  fst (run (Returns (stub_model 0.5)) submit_demo_panel initial_session) = Returns tt.
Proof.
  apply (run_returns_and_keeps_ok (Returns (stub_model 0.5)) submit_demo_panel
           initial_session).
  intros H. discriminate H.
Defined.

Lemma run_all_ok (steps : list (outcome (list (string * classifier)) * interaction))
    (s : session_state) :
  session_ok s -> Forall (fun r => r = Returns tt) (run_all steps s).
Proof.
  revert s. induction steps as [| [artifact i] rest IH]; intros s Hs; [constructor |].
  cbn [run_all]. destruct (run_ok artifact i s Hs) as [Hr Hs'].
  constructor; [exact Hr | apply IH, Hs'].
Qed.

(** X16: starting from the fresh session of the [__main__] block, no run of
    the script ever raises, however many runs follow each other and whatever
    happens in each: the artifact missing or loaded, the model raising or
    returning anything, any values typed and any button clicked. *)
Theorem no_run_raises (steps : list (outcome (list (string * classifier)) * interaction)) :
  Forall (fun r => r = Returns tt) (run_all steps initial_session).
Proof. apply run_all_ok. intros H. discriminate H. Qed.

(** X17: a stored panel that lacks a key makes the run raise the
    [KeyError] of the first missing key while the frame is built: the form is
    written, nothing else, the footer neither, and the model is not
    called. *)
Theorem run_raises_on_missing_key (model_info : list (string * classifier))
    (i : interaction) (s : session_state) (e : exn) :
  prediction_made (after_form i s) = true ->
  panel_frame (input_values (after_form i s)) = Raises e ->
  run (Returns model_info) i s =
  (Raises e, {| session := after_form i s; page := form_page |}).
Proof. apply run_frame_raises. Qed.

Lemma run_raises_on_missing_key_witness :
  run (Returns (stub_model 0.5))
      {| PT_input := 12.0; D_Dimer_input := 0.5; APTT_input := 30.0; MPV_input := 10.0;
         calculate_clicked := false; demo_clicked := false; today := "2026-01-01" |}
      {| prediction_made := true; input_values := [("PT", 12.0%float)] |} =
  (Raises (KeyError "APTT"),
   {| session := {| prediction_made := true; input_values := [("PT", 12.0%float)] |};
      page := form_page |}).
Proof. apply run_raises_on_missing_key; reflexivity. Defined.

(** X18: before any panel is stored the loaded model is not consulted: the
    run returns, writes the same page whatever the model is, and the page
    carries the hint to enter the parameters. *)
Theorem placeholder_ignores_model (model_info model_info' : list (string * classifier))
    (i : interaction) (s : session_state) :
  prediction_made (after_form i s) = false ->
  run (Returns model_info) i s = run (Returns model_info') i s /\
  fst (run (Returns model_info) i s) = Returns tt /\
  In (StInfo "👈 Enter patient parameters and click 'Calculate DIC Risk' to see predictions")
     (page (snd (run (Returns model_info) i s))).
Proof.
  intros Hm. rewrite !(run_placeholder _ _ _ Hm).
  split; [reflexivity | split; [reflexivity |]].
  cbn. do 14 right. left. reflexivity.
Qed.

Lemma placeholder_ignores_model_witness :
  run (Returns (stub_model 0.9))
      {| PT_input := 12.0; D_Dimer_input := 0.5; APTT_input := 30.0; MPV_input := 10.0;
         calculate_clicked := false; demo_clicked := false; today := "2026-01-01" |}
      initial_session =
  run (Returns [])
      {| PT_input := 12.0; D_Dimer_input := 0.5; APTT_input := 30.0; MPV_input := 10.0;
         calculate_clicked := false; demo_clicked := false; today := "2026-01-01" |}
      initial_session.
Proof. apply placeholder_ignores_model. reflexivity. Defined.

(** X19: a click on Calculate replaces what was stored: the run is the same
    whatever session it starts from, so that no value of an earlier panel can
    be shown after a click. *)
Theorem click_overrides_session (artifact : outcome (list (string * classifier)))
    (i : interaction) (s s' : session_state) :
  calculate_clicked i = true ->
  run artifact i s = run artifact i s'.
Proof.
  intros Hc. unfold run, main. ui_unfold. rewrite Hc. reflexivity.
Qed.

Lemma click_overrides_session_witness :
  run (Returns (stub_model 0.5)) submit_demo_panel initial_session =
  run (Returns (stub_model 0.5)) submit_demo_panel demo_session.
Proof. apply click_overrides_session. reflexivity. Defined.

(** X20: values typed but not submitted change nothing: with a loaded model
    and no click on Calculate, two runs on the same session and the same day
    are the same whatever stands in the four number inputs. *)
Theorem unsubmitted_inputs_ignored (model_info : list (string * classifier))
    (i i' : interaction) (s : session_state) :
  calculate_clicked i = false -> calculate_clicked i' = false ->
  today i = today i' ->
  run (Returns model_info) i s = run (Returns model_info) i' s.
Proof.
  intros Hc Hc' Hd. unfold run, main, load_model. ui_unfold.
  rewrite Hc, Hc', Hd. reflexivity.
Qed.

Lemma unsubmitted_inputs_ignored_witness :
  run (Returns (stub_model 0.5))
      {| PT_input := 12.0; D_Dimer_input := 0.5; APTT_input := 30.0; MPV_input := 10.0;
         calculate_clicked := false; demo_clicked := false; today := "2026-01-01" |}
      demo_session =
  run (Returns (stub_model 0.5))
      {| PT_input := 99.0; D_Dimer_input := 9.5; APTT_input := 1.0; MPV_input := 2.0;
         calculate_clicked := false; demo_clicked := true; today := "2026-01-01" |}
      demo_session.
Proof. apply unsubmitted_inputs_ignored; reflexivity. Defined.

End RunsAtLarge.

(** ** What a prediction shows *)

Section PredictionShown.

(** X21: every prediction is shown whole and in agreement with its tier.
    For any probability that the model returns for the stored panel, NaN and
    values outside [0,1] included, the run returns and its page carries the
    probability metric and the gauge of that probability, the cards of the
    stored panel, and, for the label, class and id that [get_risk_level]
    gives, the metric of that id, the block of that class, the heading of
    that label, the title of the bundle of that label and one bullet for each
    of its recommendations. *)
Theorem prediction_shown_agrees_with_tier (model_info : list (string * classifier))
    (i : interaction) (s : session_state) (df : input_df) (p : float) :
  prediction_made (after_form i s) = true ->
  panel_frame (input_values (after_form i s)) = Returns df ->
  predict_attempt model_info df = Returns p ->
  exists label class id t recs w,
    get_risk_level p default_thresholds = Returns (label, class, id) /\
    title (get_clinical_recommendations label) = Some t /\
    recommendations (get_clinical_recommendations label) = Some recs /\
    run (Returns model_info) i s = (Returns tt, w) /\
    In (StMetric "**DIC Probability**" (Percent1 p)) (page w) /\
    In (StHtml (RiskGauge p)) (page w) /\
    In (StHtml (ParameterDisplay
                  (create_parameter_display (input_values (after_form i s))))) (page w) /\
    In (StMetric "**Risk Level**" (Text (metric_of_id id))) (page w) /\
    In (StHtml (RiskDivOpen class)) (page w) /\
    In (StMarkdown ("### " ++ label)) (page w) /\
    In (StMarkdown ("### " ++ t)) (page w) /\
    Forall (fun r => In (StMarkdown ("• " ++ r)) (page w)) recs.
Proof.
  intros Hm Hf Hp.
  destruct (run (Returns model_info) i s) as [r w] eqn:R.
  rewrite (run_predicting _ _ _ _ Hm Hf) in R. unfold predict_risk in R. rewrite Hp in R.
  unfold mbind at 2, ui_bind at 2, mret at 1, ui_ret at 1 in R.
  unfold show_results in R. rewrite get_risk_level_default in *.
  destruct (F64.lt p 0.222); [| destruct (F64.le p 0.64)];
    vm_compute in R; injection R as <- <-;
    do 6 eexists;
    (split; [reflexivity |]);
    (split; [vm_compute; reflexivity |]);
    (split; [vm_compute; reflexivity |]);
    (split; [reflexivity |]);
    cbn [page];
    repeat (split; [repeat (first [left; reflexivity | right]) |]);
    repeat (match goal with
            | |- Forall _ (_ :: _) =>
                constructor; [repeat (first [left; reflexivity | right]) |]
            end);
    constructor.
Qed.

Lemma prediction_shown_agrees_with_tier_witness :
  exists w,
    run (Returns (stub_model 0.3)) submit_demo_panel initial_session = (Returns tt, w) /\
    In (StMarkdown "### Medium Risk") (page w).
Proof.
  destruct (prediction_shown_agrees_with_tier (stub_model 0.3) submit_demo_panel
              initial_session
              [("PT", [18.5]); ("APTT", [55.0]); ("D-Dimer", [3.2]); ("MPV", [12.5])]%float
              0.3%float)
    as (label & class & id & t & recs & w & G & _ & _ & R & _ & _ & _ & _ & _ & Hl & _);
    [reflexivity | reflexivity | reflexivity |].
  exists w. split; [exact R |].
  vm_compute in G. injection G as <- _ _. exact Hl.
Defined.

End PredictionShown.
